(** * RLBox tainted wrappers: a shallow embedding

    The development follows
    - [include/rlbox_tainted_relocatable.hpp]  (class [tainted_relocatable]),
    - [include/rlbox_tainted_volatile_standard.hpp]
      (class [tainted_volatile_standard]),
    - [tests/rlbox_unit_tests/test_invoke.cpp] (the sandboxed test functions).

    Values of fundamental and enum types are mathematical integers ([Z])
    together with the C++ type that holds them; floating-point types are
    outside the embedding.  Objects of [tainted_volatile_standard] live in
    sandbox memory and are identified by their address; objects of
    [tainted_relocatable] are host values. *)

From Stdlib Require Import ZArith Lia Bool String.
From stdpp Require Import base option gmap.

Local Open Scope Z_scope.

(** ** Results of operations *)

(** What a call can end in: a value, a reported range/conversion error, a
    call of [abort()], or an access through a reference to which no object
    is bound. *)
Inductive outcome (A : Type) : Type :=
  | Value (a : A)
  | ConversionError
  | Fatal
  | NoObject.

Arguments Value {A} a.
Arguments ConversionError {A}.
Arguments Fatal {A}.
Arguments NoObject {A}.

#[global] Instance outcome_ret : MRet outcome := @Value.

#[global] Instance outcome_bind : MBind outcome := fun A B f m =>
  match m with
  | Value a => f a
  | ConversionError => ConversionError
  | Fatal => Fatal
  | NoObject => NoObject
  end.

#[global] Instance outcome_fmap : FMap outcome := fun A B f m =>
  match m with
  | Value a => Value (f a)
  | ConversionError => ConversionError
  | Fatal => Fatal
  | NoObject => NoObject
  end.

(** How the body of a function with a non-void return type ends: by a
    [return] statement, or by control reaching the closing brace. *)
Inductive completion (A : Type) : Type :=
  | Returns (a : A)
  | FlowsOffEnd.

Arguments Returns {A} a.
Arguments FlowsOffEnd {A}.

(** ** Types *)

(** An integral type: signedness and width in bits.  It stands for
    [detail::value_type_t<T>] of a fundamental integral type, of an enum
    (its underlying type) or of a pointer seen as an integer. *)
Record int_type : Type := IntType { is_signed : bool; bits : positive }.

#[global] Instance int_type_eq_dec : EqDecision int_type.
Proof. solve_decision. Defined.

Definition uint8_t : int_type := IntType false 8.
Definition uint16_t : int_type := IntType false 16.
Definition uint32_t : int_type := IntType false 32.
Definition uint64_t : int_type := IntType false 64.
Definition int16_t : int_type := IntType true 16.
Definition int32_t : int_type := IntType true 32.
Definition int64_t : int_type := IntType true 64.

(** [std::numeric_limits<T>::min()] and [::max()]. *)
Definition numeric_limits_min (T : int_type) : Z :=
  if is_signed T then - 2 ^ (Z.pos (bits T) - 1) else 0.

Definition numeric_limits_max (T : int_type) : Z :=
  if is_signed T then 2 ^ (Z.pos (bits T) - 1) - 1 else 2 ^ Z.pos (bits T) - 1.

(** The value can be held by an object of type [T]. *)
Definition representable (T : int_type) (v : Z) : bool :=
  (numeric_limits_min T <=? v) && (v <=? numeric_limits_max T).

(** [static_cast<T>(v)] between integral types: reduction modulo [2^bits],
    read back in two's complement for a signed destination. *)
Definition static_cast (T : int_type) (v : Z) : Z :=
  let m := 2 ^ Z.pos (bits T) in
  let r := v mod m in
  if is_signed T && (2 ^ (Z.pos (bits T) - 1) <=? r) then r - m else r.

(** Modelled from the spec: [detail::convert_type_fundamental] of
    [rlbox_type_conversion.hpp], which is not part of the sources at hand.
    Section 4.1: for fundamental numeric and enum types the conversion is a
    value-range check followed by a width-adjusting cast, and it reports a
    range error when the value cannot be represented in the destination. *)
Definition convert_type_fundamental (T_To : int_type) (from : Z) : outcome Z :=
  if representable T_To from then Value (static_cast T_To from)
  else ConversionError.

(** The C++ types the wrappers are instantiated at. *)
Inductive ctype : Type :=
  | TIntegral (i : int_type)
  | TEnum (underlying : int_type)
  | TPointer (pointee : ctype)
  | TClass (name : string).

(** [detail::is_fundamental_or_enum_v<T>]: [std::is_fundamental_v<T> ||
    std::is_enum_v<T>].  Pointers and classes are neither. *)
Definition is_fundamental_or_enum_v (T : ctype) : bool :=
  match T with
  | TIntegral _ | TEnum _ => true
  | TPointer _ | TClass _ => false
  end.

(** ** The sandbox plugin [TSbx] *)

(** What the wrappers use of the plugin type: the table
    [detail::rlbox_base_types_convertor<T, TSbx>] giving the sandbox ABI type
    of every host type, and the placement of the sandbox heap. *)
Record sandbox_plugin : Type := SandboxPlugin {
  rlbox_base_types_convertor : int_type -> int_type;
  heap_base : Z;
  heap_size : Z
}.

(** Modelled from the spec: [rlbox_sandbox::get_unsandboxed_pointer], the
    [offset_to_host] of section 4.2, which always reads the current heap
    base. *)
Definition get_unsandboxed_pointer (sbx : sandbox_plugin) (offset : Z) : Z :=
  heap_base sbx + offset.

(** Modelled from the spec: [host_to_offset] of section 4.2, a bounds error
    outside [[heap_base, heap_base + heap_size)]. *)
Definition get_sandboxed_pointer (sbx : sandbox_plugin) (host_address : Z)
  : outcome Z :=
  if (heap_base sbx <=? host_address) && (host_address <? heap_base sbx + heap_size sbx)
  then Value (host_address - heap_base sbx)
  else ConversionError.

(** Sandbox memory: the payload stored at each address at which a
    [tainted_volatile_standard] object lives. *)
Abbreviation sandbox_memory := (gmap Z Z).

(** ** The interface shared by the wrappers

    The generic constructors and assignment operators take any wrapper
    [TWrap<TOther, TSbx>] and read it through [raw_host_rep()] or
    [raw_sandbox_rep()].  A wrapper that lives in sandbox memory is read in
    the memory of the moment. *)
Module TWrap.

Class tainted_wrapper (W : Type) : Type := {
  raw_host_rep : sandbox_memory -> W -> outcome Z;
  raw_sandbox_rep : sandbox_memory -> W -> outcome Z
}.

End TWrap.

(** ** [tainted_relocatable<T, TSbx>] *)
Module tainted_relocatable.

(** The specialization for fundamental (and enum) types: one data member
    [detail::value_type_t<T> data], in host representation. *)
Record fundamental (T : int_type) (TSbx : sandbox_plugin) : Type :=
  Build { data : Z }.

Arguments Build {T TSbx} data.
Arguments data {T TSbx} _.

(** The specialization for non-fundamental types: no data member. *)
Inductive non_fundamental (T : ctype) (TSbx : sandbox_plugin) : Type :=
  Empty.

Arguments Empty {T TSbx}.

Section Fundamental.
Context {T : int_type} {TSbx : sandbox_plugin}.

Definition TSbxRep : int_type := rlbox_base_types_convertor TSbx T.

Definition raw_host_rep (self : fundamental T TSbx) : Z := data self.

Definition raw_sandboxed_rep (self : fundamental T TSbx) : outcome Z :=
  convert_type_fundamental TSbxRep (data self).

Definition UNSAFE_unverified (self : fundamental T TSbx) : Z :=
  raw_host_rep self.

Definition UNSAFE_sandboxed (self : fundamental T TSbx) : outcome Z :=
  raw_sandboxed_rep self.

(** [tainted_relocatable(const TWrap<TOther, TSbx>& aOther)
      : data(aOther.raw_host_rep())], at [TOther = T]. *)
Definition from_wrapper {W : Type} `{!TWrap.tainted_wrapper W}
  (m : sandbox_memory) (aOther : W) : outcome (fundamental T TSbx) :=
  v ← TWrap.raw_host_rep m aOther; mret (Build v).

(** [tainted_relocatable(const T& aOther) : data(aOther)]. *)
Definition from_raw (aOther : Z) : fundamental T TSbx := Build aOther.

End Fundamental.

(** A [tainted_relocatable] is itself a wrapper.  The assignment operator of
    [tainted_volatile_standard] asks for [raw_sandbox_rep()]; the accessor of
    this class that returns the sandbox representation is
    [raw_sandboxed_rep()]. *)
#[global] Instance wrapper (T : int_type) (TSbx : sandbox_plugin)
  : TWrap.tainted_wrapper (fundamental T TSbx) := {|
  TWrap.raw_host_rep := fun _ self => Value (raw_host_rep self);
  TWrap.raw_sandbox_rep := fun _ self => raw_sandboxed_rep self
|}.

Module NonFundamental.

(** [raw_host_rep() const { abort(); }] *)
Definition raw_host_rep {T TSbx} (self : non_fundamental T TSbx) : outcome Z :=
  Fatal.

Definition UNSAFE_unverified {T TSbx} (self : non_fundamental T TSbx)
  : outcome Z :=
  raw_host_rep self.

End NonFundamental.

(** The class template: the partial specialization is chosen by
    [RLBOX_SPECIALIZE(detail::is_fundamental_or_enum_v<T>)]. *)
Definition class (T : ctype) (TSbx : sandbox_plugin) : Type :=
  match T with
  | TIntegral i | TEnum i => fundamental i TSbx
  | TPointer _ | TClass _ => non_fundamental T TSbx
  end.

(** [UNSAFE_unverified()] of whichever specialization [T] selects. *)
Definition UNSAFE_unverified_of (T : ctype) (TSbx : sandbox_plugin)
  : class T TSbx -> outcome Z :=
  match T with
  | TIntegral i | TEnum i => fun self => Value (UNSAFE_unverified self)
  | TPointer _ | TClass _ => fun self => NonFundamental.UNSAFE_unverified self
  end.

End tainted_relocatable.

(** ** [TSbx::tainted<T*>] *)
Module tainted_pointer.

(** Modelled from the spec: the plugin's tainted class at a pointer type,
    [TSbx::tainted<T*>], which is not part of these sources (their
    [tainted_relocatable<T*>] is the specialization without data).
    Section 3: a [Tainted<T*>] holds the offset of the location relative to
    the sandbox heap base. *)
Record class (TSbx : sandbox_plugin) : Type := Holding { offset : Z }.

Arguments Holding {TSbx} offset.
Arguments offset {TSbx} _.

(** Modelled from the spec: the constructor of [TSbx::tainted<T*>] from a
    host pointer, which [operator&] calls.  The offset held is the
    [host_to_offset] of section 4.2, a bounds error outside the heap. *)
Definition from_host_pointer {TSbx : sandbox_plugin} (host_address : Z)
  : outcome (class TSbx) :=
  offset ← get_sandboxed_pointer TSbx host_address; mret (Holding offset).

End tainted_pointer.

(** ** [tainted_volatile_standard<T, TSbx>] *)
Module tainted_volatile_standard.

(** An object of the class is a piece of sandbox memory: it is known by its
    address.  [data] is its only member, so [&data] is that address, and the
    payload [detail::value_type_t<TSbxRep> data] is what the memory holds
    there. *)
Record ref (T : int_type) (TSbx : sandbox_plugin) : Type :=
  At { this : Z }.

Arguments At {T TSbx} this.
Arguments this {T TSbx} _.

Section Methods.
Context {T : int_type} {TSbx : sandbox_plugin}.

(** Reading the member [data] of [*this]. *)
Definition data (m : sandbox_memory) (self : ref T TSbx) : outcome Z :=
  match m !! this self with
  | Some d => Value d
  | None => NoObject
  end.

(** [tainted_volatile_standard() = default], with the member initializer
    [data{0}]: an object is created in the storage at [this]. *)
Definition default_ctor (m : sandbox_memory) (self : ref T TSbx)
  : sandbox_memory :=
  <[this self := 0]> m.

(** [tainted_volatile_standard(const TWrap<TOther, TSbx>& aOther)
      : data(aOther.raw_sandbox_rep())]. *)
Definition from_wrapper {W : Type} `{!TWrap.tainted_wrapper W}
  (m : sandbox_memory) (self : ref T TSbx) (aOther : W)
  : outcome sandbox_memory :=
  d ← TWrap.raw_sandbox_rep m aOther; mret (<[this self := d]> m).

Definition UNSAFE_unverified (m : sandbox_memory) (self : ref T TSbx)
  : outcome Z :=
  d ← data m self; convert_type_fundamental T d.

(** [UNSAFE_unverified(rlbox_sandbox<TSbx>& aSandbox)]; the branch is
    [if constexpr (std::is_pointer_v<T>)]. *)
Definition UNSAFE_unverified_in (is_pointer_v : bool) (m : sandbox_memory)
  (self : ref T TSbx) : outcome Z :=
  if is_pointer_v
  then d ← data m self; mret (get_unsandboxed_pointer TSbx d)
  else UNSAFE_unverified m self.

Definition UNSAFE_sandboxed (m : sandbox_memory) (self : ref T TSbx)
  : outcome Z :=
  data m self.

Definition UNSAFE_sandboxed_in (m : sandbox_memory) (self : ref T TSbx)
  : outcome Z :=
  UNSAFE_sandboxed m self.

(** [operator=(const TWrap<T, TSbx>& aOther) { data = aOther.raw_sandbox_rep(); }]
    The body has no [return] statement.  The result is the memory after the
    store and the way the body completes.  The store is unconditional. *)
Definition operator_assign {W : Type} `{!TWrap.tainted_wrapper W}
  (m : sandbox_memory) (self : ref T TSbx) (aOther : W)
  : outcome (sandbox_memory * completion (ref T TSbx)) :=
  d ← TWrap.raw_sandbox_rep m aOther;
  mret (<[this self := d]> m, FlowsOffEnd).

(** [operator*()], for pointer [T]: [(TOpDeref* )data], the payload used as
    the address of the object referred to.  [TDeref] is
    [std::remove_pointer_t<T>]. *)
Definition operator_deref (TDeref : int_type) (m : sandbox_memory)
  (self : ref T TSbx) : outcome (ref TDeref TSbx) :=
  d ← data m self; mret (At d).

(** [operator&()]:
<<
    auto* data_ptr = (std::add_pointer_t<T>)&data;
    TOpAddrOf ret(data_ptr);
    return ret;
>>
    The host address of the payload goes to the constructor of [TOpAddrOf],
    the plugin's [tainted<T*>]. *)
Definition operator_addrof (self : ref T TSbx)
  : outcome (tainted_pointer.class TSbx) :=
  let data_ptr := this self in
  tainted_pointer.from_host_pointer data_ptr.

End Methods.

(* The class declares neither [raw_host_rep()] nor [raw_sandbox_rep()]: a
   view is not a [TWrap.tainted_wrapper], and neither the constructor
   [tainted_relocatable.from_wrapper] nor an assignment can take one. *)

End tainted_volatile_standard.

(** ** Which [operator=] an assignment to a volatile object selects

    The overloads of [tainted_volatile_standard<T, TSbx>::operator=], for a
    fundamental or enum [T], for which the raw-value overload is enabled. *)
Module overload.

(** A template parameter: its name and whether it has a default argument.
    [RLBOX_REQUIRE(...)] declares an unnamed parameter with a default
    argument; it is listed under the name of the macro. *)
Record template_parameter : Type :=
  TemplateParameter { name : string; has_default : bool }.

(** The head of a function template, as argument deduction sees it: its
    template parameters, and those of them that the type of the function
    parameter names. *)
Record function_template : Type := FunctionTemplate {
  template_parameters : list template_parameter;
  named_in_function_parameter : list string
}.

(** Deduction from a call fixes the template parameters that the type of the
    function parameter names; every other one needs a default argument. *)
Definition deduction_succeeds (f : function_template) : bool :=
  forallb
    (fun p => has_default p
              || existsb (String.eqb (name p)) (named_in_function_parameter f))
    (template_parameters f).

(** Lines 132-136:
<<
    template <template <typename, typename> typename TWrap, typename TOther,
              RLBOX_REQUIRE(...)>
    tainted_volatile_standard<T, TSbx>& operator=(const TWrap<T, TSbx>& aOther)
>> *)
Definition assign_from_wrapper : function_template :=
  FunctionTemplate
    [TemplateParameter "TWrap" false; TemplateParameter "TOther" false;
     TemplateParameter "RLBOX_REQUIRE" true]
    ["TWrap"%string].

(** Lines 149-151:
<<
    template <typename TOther, typename TDummy = T, RLBOX_REQUIRE(...)>
    tainted_volatile_standard<T, TSbx>& operator=(const TOther& aOther)
>> *)
Definition assign_from_raw : function_template :=
  FunctionTemplate
    [TemplateParameter "TOther" false; TemplateParameter "TDummy" true;
     TemplateParameter "RLBOX_REQUIRE" true]
    ["TOther"%string].

(** Lines 65-68, the converting constructor:
<<
    template <template <typename, typename...> typename TWrap, typename TOther,
              RLBOX_REQUIRE(...)>
    tainted_volatile_standard(const TWrap<TOther, TSbx>& aOther)
>> *)
Definition construct_from_wrapper : function_template :=
  FunctionTemplate
    [TemplateParameter "TWrap" false; TemplateParameter "TOther" false;
     TemplateParameter "RLBOX_REQUIRE" true]
    ["TWrap"%string; "TOther"%string].

(** The type of a right-hand side: a raw value, or the plugin's
    [tainted<TOther>]. *)
Inductive rhs_type : Type :=
  | RawValue (T : ctype)
  | TaintedOf (TOther : rhs_type).

Definition is_tainted_wrapper (rhs : rhs_type) : bool :=
  match rhs with
  | RawValue _ => false
  | TaintedOf _ => true
  end.

Inductive selected : Type := WrapperOverload | RawValueOverload.

(** Overload resolution of [*this = rhs], were [wrapper_head] the head of the
    overload that takes a wrapper.  That overload, the more specialized, is
    taken for a wrapper when its deduction succeeds; otherwise the parameter
    [const TOther&] of the raw-value overload binds to the right-hand side,
    whatever its type.  The implicitly declared copy assignment would need a
    user-defined conversion of the right-hand side, ranks below that exact
    match and is left out. *)
Definition select_with (wrapper_head : function_template) (rhs : rhs_type)
  : selected :=
  if deduction_succeeds wrapper_head && is_tainted_wrapper rhs
  then WrapperOverload
  else RawValueOverload.

Definition select : rhs_type -> selected := select_with assign_from_wrapper.

(** Instantiating the body of the raw-value overload at [TOther], lines
    156-158:
<<
    using tainted_tother_t = typename TSbx::template tainted<TOther>;
    tainted_tother_t tainted_other(aOther);
    *this = tainted_other;
>>
    The assignment has a right-hand side of type [tainted<TOther>] and needs
    the overload it selects; the body of the wrapper overload calls no
    further [operator=].  The construction of [tainted_other] is taken to be
    well-formed.  [depth] bounds the nesting of instantiations, as a
    compiler does. *)
Fixpoint raw_value_overload_instantiates_with (wrapper_head : function_template)
  (depth : nat) (TOther : rhs_type) : bool :=
  match depth with
  | O => false
  | S depth' =>
      match select_with wrapper_head (TaintedOf TOther) with
      | WrapperOverload => true
      | RawValueOverload =>
          raw_value_overload_instantiates_with wrapper_head depth'
            (TaintedOf TOther)
      end
  end.

Definition raw_value_overload_instantiates : nat -> rhs_type -> bool :=
  raw_value_overload_instantiates_with assign_from_wrapper.

End overload.

(** ** The sandboxed calls of [test_invoke.cpp] *)
Module test_invoke.

(** [static uint16_t test_add_uint16_t(uint16_t aVal1, uint16_t aVal2)
      { return aVal1 + aVal2; }]: the sum is computed after integral
    promotion and converted to the return type. *)
Definition test_add_uint16_t (aVal1 aVal2 : Z) : Z :=
  static_cast uint16_t (aVal1 + aVal2).

(** Modelled from the spec: [sandbox_invoke] for a function of two
    arguments (section 4.4).  Each argument is lowered to its ABI
    representation, the backend runs the function on the lowered values, and
    the result is raised into a tainted value by the inverse conversion; a
    conversion failure of an argument or of the result ends the call. *)
Definition sandbox_invoke {TRet : int_type} {TSbx : sandbox_plugin}
  {W1 W2 : Type} `{!TWrap.tainted_wrapper W1} `{!TWrap.tainted_wrapper W2}
  (m : sandbox_memory) (f : Z -> Z -> Z) (a1 : W1) (a2 : W2)
  : outcome (tainted_relocatable.fundamental TRet TSbx) :=
  x1 ← TWrap.raw_sandbox_rep m a1;
  x2 ← TWrap.raw_sandbox_rep m a2;
  r ← convert_type_fundamental TRet (f x1 x2);
  mret (tainted_relocatable.from_raw r).

(** [static uint32_t test_add_uint32_t(uint32_t aVal1, uint32_t aVal2)] and
    [static uint64_t test_add_uint64_t(uint64_t aVal1, uint64_t aVal2)]:
    the sum of two unsigned values, converted to the unsigned return type. *)
Definition test_add_uint32_t (aVal1 aVal2 : Z) : Z :=
  static_cast uint32_t (aVal1 + aVal2).

Definition test_add_uint64_t (aVal1 aVal2 : Z) : Z :=
  static_cast uint64_t (aVal1 + aVal2).

(** The three unsigned additions, with the type of their operands and
    result. *)
Inductive unsigned_add_test : Type := AddU16 | AddU32 | AddU64.

Definition operand_type (k : unsigned_add_test) : int_type :=
  match k with
  | AddU16 => uint16_t
  | AddU32 => uint32_t
  | AddU64 => uint64_t
  end.

Definition test_add (k : unsigned_add_test) : Z -> Z -> Z :=
  match k with
  | AddU16 => test_add_uint16_t
  | AddU32 => test_add_uint32_t
  | AddU64 => test_add_uint64_t
  end.

(** *** [test_array_arg_internal]

    The function is written against the sandbox ABI: [TSbxInt] is
    [rlbox_sandbox_type_test_ptr::sbx_int], which these sources do not
    define, and [int] is the host's, [sizeof_int] bytes of 8 bits wide.  An
    undefined operation (a read where no [int] is stored, an overflowing
    signed addition) is [None]. *)
Section ArrayArg.
Context (sizeof_int : positive) (TSbxInt : int_type).

Definition int_t : int_type := IntType true (8 * sizeof_int).

(** Integral promotion: a type narrower than [int] becomes [int]. *)
Definition integral_promotion (A : int_type) : int_type :=
  if (bits A <? bits int_t)%positive then int_t else A.

(** The common type of the operands of a binary operator, as signedness and
    width: the wider of two types of one signedness; of a signed and an
    unsigned type, the signed one if it is strictly wider and the unsigned
    one of the larger width otherwise. *)
Definition usual_arithmetic_conversions (A B : int_type) : int_type :=
  let A' := integral_promotion A in
  let B' := integral_promotion B in
  if Bool.eqb (is_signed A') (is_signed B')
  then (if (bits A' <? bits B')%positive then B' else A')
  else
    let U := if is_signed A' then B' else A' in
    let S := if is_signed A' then A' else B' in
    if (bits S <=? bits U)%positive then U else S.

(** [a + b] evaluated in the type [C]: modulo [2^bits] when [C] is unsigned,
    undefined on overflow when it is signed. *)
Definition add_in (C : int_type) (a b : Z) : option Z :=
  if is_signed C
  then (if representable C (a + b) then Some (a + b) else None)
  else Some (static_cast C (a + b)).

(** The body of the loop, for the [n] iterations that remain at index [i]:
<<
    char* val_ptr = arr + sizeof(int) * i;
    int copy = 0;
    memcpy(&copy, val_ptr, sizeof(int));
    sum = TSbxInt(sum + copy);
>> *)
Fixpoint sum_loop (m : sandbox_memory) (arr : Z) (n : nat) (i sum : Z)
  : option Z :=
  match n with
  | O => Some sum
  | S n' =>
      let val_ptr := arr + Z.pos sizeof_int * i in
      copy ← m !! val_ptr;
      s ← add_in (usual_arithmetic_conversions TSbxInt int_t) sum copy;
      sum_loop m arr n' (i + 1) (static_cast TSbxInt s)
  end.

(** [for (TSbxInt i = 0; i < aCount; i++)] runs [aCount] times, and not at
    all for a count that is not positive.  The memory gives the [int] stored
    at each address; [aSandboxMemory] is the address of the sandbox heap. *)
Definition test_array_arg_internal (m : sandbox_memory)
  (aSandboxMemory aArrIdx aCount : Z) : option Z :=
  let arr := aSandboxMemory + aArrIdx in
  sum_loop m arr (Z.to_nat aCount) 0 0.

End ArrayArg.

End test_invoke.

(** ** What the specification asks of the operations *)
Module spec.

Section Spec.
Context {T : int_type} {TSbx : sandbox_plugin}.

(** Section 4.3: the [TaintedVolatile<T>] obtained by dereferencing is bound
    to the address the translation layer computes from the stored offset. *)
Definition bound_by_translation
  {P : int_type} (m : sandbox_memory)
  (pv : tainted_volatile_standard.ref P TSbx)
  (r : tainted_volatile_standard.ref T TSbx) : Prop :=
  exists offset, m !! tainted_volatile_standard.this pv = Some offset /\
    tainted_volatile_standard.this r = get_unsandboxed_pointer TSbx offset.

End Spec.

End spec.

(** ** Arrays in sandbox memory *)
Module invariants.

(** The sum of a list of integers. *)
Definition sumZ (xs : list Z) : Z := foldr Z.add 0 xs.

(** The [int]s [xs] are stored from address [arr] on, [step] bytes apart. *)
Definition stored_at (m : sandbox_memory) (arr step : Z) (xs : list Z) : Prop :=
  forall (j : nat) (x : Z), xs !! j = Some x -> m !! (arr + step * Z.of_nat j) = Some x.

End invariants.

(** ** A wrapper class for the examples *)
Module stand_in.

(** A wrapper class that declares [raw_host_rep()] and [raw_sandbox_rep()]
    under the names the generic members use.  No class of these sources
    does; it stands for a wrapper class of the rest of the library. *)
Record named_wrapper : Type := NamedWrapper { host_rep : Z; sandbox_rep : Z }.

#[global] Instance named_wrapper_accessors
  : TWrap.tainted_wrapper named_wrapper := {|
  TWrap.raw_host_rep := fun _ w => Value (host_rep w);
  TWrap.raw_sandbox_rep := fun _ w => Value (sandbox_rep w)
|}.

End stand_in.

(** ** Plugin configurations for the examples *)
Module configs.

(** The sandbox ABI is the host ABI and the heap starts at address 0. *)
Definition same_abi : sandbox_plugin :=
  SandboxPlugin (fun T => T) 0 (2 ^ 32).

(** A smaller ABI: types wider than 32 bits are 32 bits in the sandbox, the
    others keep their width; the heap starts at address 4096. *)
Definition smaller_abi : sandbox_plugin :=
  SandboxPlugin
    (fun T => if (32 <? Z.pos (bits T)) then IntType (is_signed T) 32 else T)
    4096 65536.

(** A larger ABI: every type is 64 bits in the sandbox. *)
Definition larger_abi : sandbox_plugin :=
  SandboxPlugin (fun T => IntType (is_signed T) 64) 4096 65536.

(** An ABI in which [uint16_t] itself is narrower than on the host. *)
Definition narrow_u16_abi : sandbox_plugin :=
  SandboxPlugin (fun T => if decide (T = uint16_t) then uint8_t else T)
    4096 65536.

End configs.

(** * Properties *)

(** ** Ranges, casts and the checked conversion *)

Lemma pow2_half (b : positive) : 2 ^ Z.pos b = 2 * 2 ^ (Z.pos b - 1).
Proof.
  rewrite <- (Z.pow_succ_r 2 (Z.pos b - 1)) by lia.
  f_equal. lia.
Qed.

Lemma pow2_half_pos (b : positive) : 0 < 2 ^ (Z.pos b - 1).
Proof. apply Z.pow_pos_nonneg; lia. Qed.

Lemma numeric_limits_min_nonpos (T : int_type) : numeric_limits_min T <= 0.
Proof.
  unfold numeric_limits_min. destruct (is_signed T); [|lia].
  pose proof (pow2_half_pos (bits T)). lia.
Qed.

Lemma numeric_limits_max_nonneg (T : int_type) : 0 <= numeric_limits_max T.
Proof.
  unfold numeric_limits_max.
  pose proof (pow2_half_pos (bits T)). pose proof (pow2_half (bits T)).
  destruct (is_signed T); lia.
Qed.

Lemma representable_spec (T : int_type) (v : Z) :
  representable T v = true <-> numeric_limits_min T <= v <= numeric_limits_max T.
Proof. unfold representable. rewrite andb_true_iff, !Z.leb_le. tauto. Qed.

Lemma representable_0 (T : int_type) : representable T 0 = true.
Proof.
  apply representable_spec. split.
  - apply numeric_limits_min_nonpos.
  - apply numeric_limits_max_nonneg.
Qed.

(** Inside the range of the destination the cast changes nothing. *)
Lemma static_cast_representable (T : int_type) (v : Z) :
  representable T v = true -> static_cast T v = v.
Proof.
  intros Hr. apply representable_spec in Hr.
  unfold numeric_limits_min, numeric_limits_max in Hr.
  unfold static_cast. cbv zeta.
  pose proof (pow2_half (bits T)) as Hh.
  pose proof (pow2_half_pos (bits T)) as Hp.
  destruct (is_signed T); cbn [andb].
  - destruct (Z_lt_le_dec v 0) as [Hneg | Hpos].
    + assert (Hm : v mod 2 ^ Z.pos (bits T) = v + 2 ^ Z.pos (bits T)).
      { symmetry. apply (Z.mod_unique _ _ (-1)); lia. }
      rewrite Hm.
      destruct (Z.leb_spec (2 ^ (Z.pos (bits T) - 1)) (v + 2 ^ Z.pos (bits T))); lia.
    + rewrite Z.mod_small by lia.
      destruct (Z.leb_spec (2 ^ (Z.pos (bits T) - 1)) v); lia.
  - apply Z.mod_small. lia.
Qed.

(** The cast always lands in the range of its destination. *)
Lemma static_cast_in_range (T : int_type) (v : Z) :
  representable T (static_cast T v) = true.
Proof.
  apply representable_spec.
  unfold numeric_limits_min, numeric_limits_max, static_cast. cbv zeta.
  pose proof (pow2_half (bits T)) as Hh.
  pose proof (pow2_half_pos (bits T)) as Hp.
  assert (Hmod : 0 <= v mod 2 ^ Z.pos (bits T) < 2 ^ Z.pos (bits T))
    by (apply Z.mod_pos_bound; lia).
  destruct (is_signed T); cbn [andb].
  - destruct (Z.leb_spec (2 ^ (Z.pos (bits T) - 1)) (v mod 2 ^ Z.pos (bits T))); lia.
  - lia.
Qed.

Lemma convert_representable (T : int_type) (v : Z) :
  representable T v = true -> convert_type_fundamental T v = Value v.
Proof.
  intros Hr. unfold convert_type_fundamental. rewrite Hr.
  by rewrite static_cast_representable.
Qed.

Lemma convert_not_representable (T : int_type) (v : Z) :
  representable T v = false -> convert_type_fundamental T v = ConversionError.
Proof. intros Hr. unfold convert_type_fundamental. by rewrite Hr. Qed.

(** A conversion that yields a value yields the value it was given. *)
Lemma convert_Value_inv (T : int_type) (v r : Z) :
  convert_type_fundamental T v = Value r -> r = v /\ representable T v = true.
Proof.
  unfold convert_type_fundamental.
  destruct (representable T v) eqn:Hr; [|discriminate].
  intros [= <-]. split; [|done]. by apply static_cast_representable.
Qed.

(** The conversion ends in a value or in a conversion error, nothing else. *)
Lemma convert_cases (T : int_type) (v : Z) :
  convert_type_fundamental T v = Value v \/
  convert_type_fundamental T v = ConversionError.
Proof.
  destruct (representable T v) eqn:Hr.
  - left. by apply convert_representable.
  - right. by apply convert_not_representable.
Qed.

(** A type narrower than 16 bits cannot hold the largest [uint16_t]. *)
Lemma narrower_than_16_excludes_max (A : int_type) :
  (Z.pos (bits A) < 16) -> representable A 65535 = false.
Proof.
  intros Hb. apply not_true_is_false. rewrite representable_spec.
  unfold numeric_limits_max.
  assert (Hle : 2 ^ Z.pos (bits A) <= 2 ^ 15) by (apply Z.pow_le_mono_r; lia).
  pose proof (pow2_half (bits A)). pose proof (pow2_half_pos (bits A)).
  change (2 ^ 15) with 32768 in Hle.
  destruct (is_signed A); lia.
Qed.

Example static_cast_wraps_uint16 : static_cast uint16_t (65535 + 5) = 4.
Proof. reflexivity. Qed.

Example static_cast_wraps_int16 : static_cast int16_t 40000 = -25536.
Proof. reflexivity. Qed.

Example convert_rejects_out_of_range :
  convert_type_fundamental uint16_t 65540 = ConversionError /\
  convert_type_fundamental int32_t (-7) = Value (-7).
Proof. split; reflexivity. Qed.

(** ** Reading the payload of a volatile object *)

Section VolatileAccess.
Context {T : int_type} {TSbx : sandbox_plugin}.
Implicit Types (m : sandbox_memory) (tv : tainted_volatile_standard.ref T TSbx).

Lemma data_lookup m tv d :
  m !! tainted_volatile_standard.this tv = Some d ->
  tainted_volatile_standard.data m tv = Value d.
Proof. intros H. unfold tainted_volatile_standard.data. by rewrite H. Qed.

Lemma data_insert m tv d :
  tainted_volatile_standard.data (<[tainted_volatile_standard.this tv := d]> m) tv
  = Value d.
Proof. apply data_lookup, lookup_insert_eq. Qed.

End VolatileAccess.

(** ** The claims *)

(** C1.  Round trip: a host value [v] of type [T] that the sandbox ABI type
    of [T] can also represent is lowered by [UNSAFE_sandboxed] on the tainted
    wrapper holding it; a [tainted_volatile_standard] holding that ABI value
    raises it by [UNSAFE_unverified] to exactly [v]. *)
Theorem lower_then_raise_round_trip (T : int_type) (TSbx : sandbox_plugin)
  (v : Z) (m : sandbox_memory) (tv : tainted_volatile_standard.ref T TSbx) :
  representable T v = true ->
  representable (rlbox_base_types_convertor TSbx T) v = true ->
  (abi ← tainted_relocatable.UNSAFE_sandboxed
           (tainted_relocatable.from_raw v : tainted_relocatable.fundamental T TSbx);
   tainted_volatile_standard.UNSAFE_unverified
     (<[tainted_volatile_standard.this tv := abi]> m) tv)
  = Value v.
Proof.
  intros HT HA.
  unfold tainted_relocatable.UNSAFE_sandboxed,
    tainted_relocatable.raw_sandboxed_rep, tainted_relocatable.TSbxRep.
  cbn [tainted_relocatable.from_raw tainted_relocatable.data].
  rewrite (convert_representable _ _ HA). cbn [mbind outcome_bind].
  unfold tainted_volatile_standard.UNSAFE_unverified.
  rewrite data_insert. cbn [mbind outcome_bind].
  by apply convert_representable.
Qed.

Lemma lower_then_raise_round_trip_witness :
  (abi ← tainted_relocatable.UNSAFE_sandboxed
           (tainted_relocatable.from_raw 70000
              : tainted_relocatable.fundamental int64_t configs.smaller_abi);
   tainted_volatile_standard.UNSAFE_unverified
     (<[8192 := abi]> ∅)
     (tainted_volatile_standard.At 8192
        : tainted_volatile_standard.ref int64_t configs.smaller_abi))
  = Value 70000.
Proof.
  apply (lower_then_raise_round_trip int64_t configs.smaller_abi 70000 ∅
           (tainted_volatile_standard.At 8192)); reflexivity.
Defined.

(** C6.  Both unwrap conversions are checked.  [UNSAFE_unverified] on a
    [tainted_volatile_standard<T>] reports an error when the stored ABI value
    cannot be represented in [T]; [UNSAFE_sandboxed] on a
    [tainted_relocatable<T>] reports an error when the host value does not
    fit the sandbox ABI type; and whenever either yields a value, it is the
    stored value itself, neither truncated nor wrapped. *)
Theorem unwrap_conversions_are_checked (T : int_type) (TSbx : sandbox_plugin) :
  (forall (m : sandbox_memory) (tv : tainted_volatile_standard.ref T TSbx) d,
      m !! tainted_volatile_standard.this tv = Some d ->
      representable T d = false ->
      tainted_volatile_standard.UNSAFE_unverified m tv = ConversionError) /\
  (forall t : tainted_relocatable.fundamental T TSbx,
      representable (rlbox_base_types_convertor TSbx T)
        (tainted_relocatable.data t) = false ->
      tainted_relocatable.UNSAFE_sandboxed t = ConversionError) /\
  (forall (m : sandbox_memory) (tv : tainted_volatile_standard.ref T TSbx) d r,
      m !! tainted_volatile_standard.this tv = Some d ->
      tainted_volatile_standard.UNSAFE_unverified m tv = Value r ->
      r = d /\ representable T d = true) /\
  (forall (t : tainted_relocatable.fundamental T TSbx) r,
      tainted_relocatable.UNSAFE_sandboxed t = Value r ->
      r = tainted_relocatable.data t /\
      representable (rlbox_base_types_convertor TSbx T) r = true).
Proof.
  split; [|split; [|split]].
  - intros m tv d Hd Hr. unfold tainted_volatile_standard.UNSAFE_unverified.
    rewrite (data_lookup _ _ _ Hd). cbn [mbind outcome_bind].
    by apply convert_not_representable.
  - intros t Hr. by apply convert_not_representable.
  - intros m tv d r Hd. unfold tainted_volatile_standard.UNSAFE_unverified.
    rewrite (data_lookup _ _ _ Hd). cbn [mbind outcome_bind].
    intros Hc. by apply convert_Value_inv in Hc.
  - intros t r Hc. apply convert_Value_inv in Hc as [-> Hr]. done.
Qed.

Lemma unwrap_conversions_are_checked_witness :
  tainted_volatile_standard.UNSAFE_unverified (<[8192 := 2 ^ 32]> ∅)
    (tainted_volatile_standard.At 8192
       : tainted_volatile_standard.ref uint32_t configs.larger_abi)
  = ConversionError /\
  tainted_relocatable.UNSAFE_sandboxed
    (tainted_relocatable.from_raw (2 ^ 31)
       : tainted_relocatable.fundamental int64_t configs.smaller_abi)
  = ConversionError.
Proof.
  split.
  - apply (proj1 (unwrap_conversions_are_checked uint32_t configs.larger_abi))
      with (d := 2 ^ 32).
    + apply lookup_insert_eq.
    + reflexivity.
  - apply (proj1 (proj2
      (unwrap_conversions_are_checked int64_t configs.smaller_abi))).
    reflexivity.
Defined.

(** C9.  [tainted_volatile_standard<T>] keeps its payload in the sandbox ABI
    representation: [UNSAFE_sandboxed] returns the stored payload as it is,
    whether or not [T] can represent it, and [UNSAFE_unverified] is the
    checked conversion of that payload to [T].  [tainted_relocatable<T>] is
    the mirror image: [UNSAFE_unverified] returns the stored host payload as
    it is and [UNSAFE_sandboxed] is its checked conversion to the ABI type. *)
Theorem payload_representations (T : int_type) (TSbx : sandbox_plugin)
  (m : sandbox_memory) (tv : tainted_volatile_standard.ref T TSbx) (d : Z)
  (t : tainted_relocatable.fundamental T TSbx) :
  m !! tainted_volatile_standard.this tv = Some d ->
  tainted_volatile_standard.UNSAFE_sandboxed m tv = Value d /\
  tainted_volatile_standard.UNSAFE_unverified m tv
    = convert_type_fundamental T d /\
  tainted_relocatable.UNSAFE_unverified t = tainted_relocatable.data t /\
  tainted_relocatable.UNSAFE_sandboxed t
    = convert_type_fundamental (rlbox_base_types_convertor TSbx T)
        (tainted_relocatable.data t).
Proof.
  intros Hd. split; [|split; [|split]].
  - by apply data_lookup.
  - unfold tainted_volatile_standard.UNSAFE_unverified.
    by rewrite (data_lookup _ _ _ Hd).
  - reflexivity.
  - reflexivity.
Qed.

Lemma payload_representations_witness :
  let tv : tainted_volatile_standard.ref uint16_t configs.larger_abi :=
    tainted_volatile_standard.At 8192 in
  let t : tainted_relocatable.fundamental uint16_t configs.larger_abi :=
    tainted_relocatable.from_raw 7 in
  tainted_volatile_standard.UNSAFE_sandboxed (<[8192 := 70000]> ∅) tv
    = Value 70000 /\
  tainted_volatile_standard.UNSAFE_unverified (<[8192 := 70000]> ∅) tv
    = ConversionError /\
  tainted_relocatable.UNSAFE_unverified t = 7 /\
  tainted_relocatable.UNSAFE_sandboxed t = Value 7.
Proof.
  intros tv t.
  apply (payload_representations uint16_t configs.larger_abi
           (<[8192 := 70000]> ∅) tv 70000 t).
  apply lookup_insert_eq.
Defined.

(** C10.  A default-constructed [tainted_volatile_standard<T>] has a
    zero-initialized payload: [UNSAFE_sandboxed] on the fresh object returns
    0, and [UNSAFE_unverified] returns the zero of [T]. *)
Theorem default_constructed_is_zero (T : int_type) (TSbx : sandbox_plugin)
  (m : sandbox_memory) (tv : tainted_volatile_standard.ref T TSbx) :
  let m0 := tainted_volatile_standard.default_ctor m tv in
  tainted_volatile_standard.UNSAFE_sandboxed m0 tv = Value 0 /\
  tainted_volatile_standard.UNSAFE_unverified m0 tv = Value 0.
Proof.
  cbv zeta. unfold tainted_volatile_standard.default_ctor,
    tainted_volatile_standard.UNSAFE_unverified,
    tainted_volatile_standard.UNSAFE_sandboxed.
  rewrite data_insert. split; [done|].
  cbn [mbind outcome_bind]. apply convert_representable, representable_0.
Qed.

(** C3.  For a type that is neither fundamental nor an enum, the generic
    [tainted_relocatable<T>] never hands out a raw value:
    [UNSAFE_unverified] reaches [abort()]. *)
Theorem non_fundamental_unverified_aborts (T : ctype) (TSbx : sandbox_plugin)
  (self : tainted_relocatable.class T TSbx) :
  is_fundamental_or_enum_v T = false ->
  tainted_relocatable.UNSAFE_unverified_of T TSbx self = Fatal.
Proof.
  destruct T; cbn; intros Hf; try discriminate; reflexivity.
Qed.

Lemma non_fundamental_unverified_aborts_witness :
  tainted_relocatable.UNSAFE_unverified_of (TClass "Foo") configs.same_abi
    tainted_relocatable.Empty = Fatal.
Proof.
  apply (non_fundamental_unverified_aborts (TClass "Foo") configs.same_abi
           tainted_relocatable.Empty).
  reflexivity.
Defined.

(** ** Assignment into a volatile object *)

(** C2.  The body of the [operator=] that takes a tainted wrapper stores the
    sandbox representation of the wrapper and then reaches its closing
    brace: it has no [return] statement, so a call of it does not return a
    reference to the updated wrapper. *)
Theorem wrapper_assignment_has_no_return (W : Type)
  (HW : TWrap.tainted_wrapper W) (T : int_type) (TSbx : sandbox_plugin)
  (m : sandbox_memory) (tv : tainted_volatile_standard.ref T TSbx)
  (aOther : W) (d : Z) :
  TWrap.raw_sandbox_rep m aOther = Value d ->
  tainted_volatile_standard.operator_assign m tv aOther
  = Value (<[tainted_volatile_standard.this tv := d]> m, FlowsOffEnd).
Proof.
  intros Hd. unfold tainted_volatile_standard.operator_assign.
  by rewrite Hd.
Qed.

Lemma wrapper_assignment_has_no_return_witness :
  tainted_volatile_standard.operator_assign (<[8192 := 0]> ∅)
    (tainted_volatile_standard.At 8192
       : tainted_volatile_standard.ref int32_t configs.same_abi)
    (stand_in.NamedWrapper 5 5)
  = Value (<[8192 := 5]> (<[8192 := 0]> ∅), FlowsOffEnd).
Proof.
  apply (wrapper_assignment_has_no_return stand_in.named_wrapper _
           int32_t configs.same_abi (<[8192 := 0]> ∅)
           (tainted_volatile_standard.At 8192) (stand_in.NamedWrapper 5 5) 5).
  reflexivity.
Defined.

(** ** Overload resolution of an assignment *)

(** The parameter [const TOther&] of the raw-value overload is deduced from
    any right-hand side. *)
Lemma assign_from_raw_deduces :
  overload.deduction_succeeds overload.assign_from_raw = true.
Proof. reflexivity. Qed.

(** Had the assignment operator named [TOther] in its parameter, as the
    converting constructor does, the raw-value overload would reach it. *)
Lemma constructor_head_would_be_reached (TOther : overload.rhs_type) :
  overload.raw_value_overload_instantiates_with overload.construct_from_wrapper
    1 TOther = true.
Proof. reflexivity. Qed.

(** C4.  The route through [Tainted<T>] is not available to a raw-value
    assignment.  The wrapper overload of [operator=] leaves [TOther]
    undeducible, so [*this = tainted_other] in the raw-value overload
    selects the raw-value overload again, at [tainted<TOther>], and so on:
    at no depth is the body instantiated, and a raw value is never stored,
    checked or not. *)
Theorem raw_assignment_cannot_be_instantiated (depth : nat)
  (TOther : overload.rhs_type) :
  overload.deduction_succeeds overload.assign_from_wrapper = false /\
  overload.select (overload.TaintedOf TOther) = overload.RawValueOverload /\
  overload.raw_value_overload_instantiates depth TOther = false.
Proof.
  split; [reflexivity|]. split; [reflexivity|].
  revert TOther. induction depth as [|depth IH]; intros TOther; [reflexivity|].
  unfold overload.raw_value_overload_instantiates in *. cbn.
  apply IH.
Qed.

(** ** Address-of and dereference *)

Section Pointers.
Context {T P : int_type} {TSbx : sandbox_plugin}.
Implicit Types (m : sandbox_memory) (tv : tainted_volatile_standard.ref T TSbx)
  (pv : tainted_volatile_standard.ref P TSbx).

(** [operator*] refers to the object at the address the payload gives. *)
Lemma operator_deref_payload m pv d :
  m !! tainted_volatile_standard.this pv = Some d ->
  tainted_volatile_standard.operator_deref T m pv
  = Value (tainted_volatile_standard.At d).
Proof.
  intros Hd. unfold tainted_volatile_standard.operator_deref.
  by rewrite (data_lookup _ _ _ Hd).
Qed.

End Pointers.

(** C5.  [operator*] does not go through the translation layer.  With the
    heap at 4096, [&tv] for the object at host address 4100 holds the offset
    4; for a volatile pointer that stores this offset,
    [UNSAFE_unverified(aSandbox)] translates it to 4100, but [operator*]
    refers to address 4: not the translated address, and not the object the
    address was taken of. *)
Theorem deref_is_not_translated :
  let tv : tainted_volatile_standard.ref int32_t configs.smaller_abi :=
    tainted_volatile_standard.At 4100 in
  let pv : tainted_volatile_standard.ref uint32_t configs.smaller_abi :=
    tainted_volatile_standard.At 4200 in
  let m : sandbox_memory := <[4200 := 4]> (<[4100 := 0]> ∅) in
  let r : tainted_volatile_standard.ref int32_t configs.smaller_abi :=
    tainted_volatile_standard.At 4 in
  tainted_volatile_standard.operator_addrof tv
    = Value (tainted_pointer.Holding 4) /\
  tainted_volatile_standard.UNSAFE_unverified_in true m pv = Value 4100 /\
  tainted_volatile_standard.operator_deref int32_t m pv = Value r /\
  r <> tv /\
  ~ spec.bound_by_translation m pv r.
Proof.
  intros tv pv m r.
  split; [reflexivity|]. split; [reflexivity|]. split; [reflexivity|].
  split; [discriminate|].
  intros [offset [Hoff Hthis]].
  assert (Hd : m !! tainted_volatile_standard.this pv = Some 4) by reflexivity.
  rewrite Hd in Hoff. injection Hoff as <-.
  cbn in Hthis. discriminate.
Qed.

(** ** Calls into the sandbox *)

Section Invoke.
Context {TSbx : sandbox_plugin}.

(** Lowering a tainted [uint16_t] argument. *)
Lemma lower_u16 (v : Z) :
  representable (rlbox_base_types_convertor TSbx uint16_t) v = true ->
  TWrap.raw_sandbox_rep (∅ : sandbox_memory)
    (tainted_relocatable.from_raw v
       : tainted_relocatable.fundamental uint16_t TSbx) = Value v.
Proof. intros Hr. by apply convert_representable. Qed.

(** An ABI type that holds the largest [uint16_t] also holds 5. *)
Lemma holds_max_holds_5 (A : int_type) :
  representable A 65535 = true -> representable A 5 = true.
Proof.
  rewrite !representable_spec. pose proof (numeric_limits_min_nonpos A). lia.
Qed.

End Invoke.

(** C8, as stated, fails.  When the ABI type of [uint16_t] is narrower than
    the host type, [max_u16] cannot be lowered: the call reports a
    conversion error and yields no tainted result. *)
Lemma add_u16_narrow_abi_is_conversion_error :
  let t_val1 : tainted_relocatable.fundamental uint16_t configs.narrow_u16_abi :=
    tainted_relocatable.from_raw 65535 in
  let t_val2 : tainted_relocatable.fundamental uint16_t configs.narrow_u16_abi :=
    tainted_relocatable.from_raw 5 in
  (bits (rlbox_base_types_convertor configs.narrow_u16_abi uint16_t)
     < bits uint16_t)%positive /\
  ~ exists ret : tainted_relocatable.fundamental uint16_t configs.narrow_u16_abi,
      test_invoke.sandbox_invoke ∅ test_invoke.test_add_uint16_t t_val1 t_val2
        = Value ret /\
      tainted_relocatable.UNSAFE_unverified ret = static_cast uint16_t (65535 + 5).
Proof.
  intros t_val1 t_val2. split; [reflexivity|].
  intros [ret [Hret _]]. discriminate Hret.
Qed.

(** C8, amended.  Given a sandbox configuration whose ABI type for
    [uint16_t] can hold [max_u16], invoking [test_add_uint16_t] with the
    tainted arguments [max_u16] and 5 yields a tainted result whose
    unverified extraction is [uint16_t(max_u16 + 5)], that is 4: the sum
    wraps modulo [2^16].  Given an ABI type for [uint16_t] narrower than 16
    bits, the call reports a conversion error instead. *)
Theorem add_u16_wraps_or_is_rejected (TSbx : sandbox_plugin) :
  let t_val1 : tainted_relocatable.fundamental uint16_t TSbx :=
    tainted_relocatable.from_raw 65535 in
  let t_val2 : tainted_relocatable.fundamental uint16_t TSbx :=
    tainted_relocatable.from_raw 5 in
  (representable (rlbox_base_types_convertor TSbx uint16_t) 65535 = true ->
   exists ret : tainted_relocatable.fundamental uint16_t TSbx,
     test_invoke.sandbox_invoke ∅ test_invoke.test_add_uint16_t t_val1 t_val2
       = Value ret /\
     tainted_relocatable.UNSAFE_unverified ret = static_cast uint16_t (65535 + 5) /\
     tainted_relocatable.UNSAFE_unverified ret = 4) /\
  (Z.pos (bits (rlbox_base_types_convertor TSbx uint16_t)) < 16 ->
   test_invoke.sandbox_invoke (TRet := uint16_t) (TSbx := TSbx)
     ∅ test_invoke.test_add_uint16_t t_val1 t_val2 = ConversionError).
Proof.
  cbv zeta. split.
  - intros Hmax. exists (tainted_relocatable.from_raw 4).
    split; [|split; reflexivity].
    unfold test_invoke.sandbox_invoke.
    rewrite (lower_u16 65535 Hmax). cbn [mbind outcome_bind].
    rewrite (lower_u16 5 (holds_max_holds_5 _ Hmax)). reflexivity.
  - intros Hnarrow. unfold test_invoke.sandbox_invoke.
    cbn [TWrap.raw_sandbox_rep tainted_relocatable.wrapper].
    unfold tainted_relocatable.raw_sandboxed_rep, tainted_relocatable.TSbxRep.
    cbn [tainted_relocatable.from_raw tainted_relocatable.data].
    rewrite (convert_not_representable _ _
               (narrower_than_16_excludes_max _ Hnarrow)).
    reflexivity.
Qed.

Lemma add_u16_wraps_or_is_rejected_witness :
  (exists ret : tainted_relocatable.fundamental uint16_t configs.smaller_abi,
     test_invoke.sandbox_invoke ∅ test_invoke.test_add_uint16_t
       (tainted_relocatable.from_raw 65535
          : tainted_relocatable.fundamental uint16_t configs.smaller_abi)
       (tainted_relocatable.from_raw 5
          : tainted_relocatable.fundamental uint16_t configs.smaller_abi)
       = Value ret /\
     tainted_relocatable.UNSAFE_unverified ret = static_cast uint16_t (65535 + 5) /\
     tainted_relocatable.UNSAFE_unverified ret = 4) /\
  test_invoke.sandbox_invoke (TRet := uint16_t) (TSbx := configs.narrow_u16_abi)
    ∅ test_invoke.test_add_uint16_t
    (tainted_relocatable.from_raw 65535
       : tainted_relocatable.fundamental uint16_t configs.narrow_u16_abi)
    (tainted_relocatable.from_raw 5
       : tainted_relocatable.fundamental uint16_t configs.narrow_u16_abi)
  = ConversionError.
Proof.
  split.
  - apply (proj1 (add_u16_wraps_or_is_rejected configs.smaller_abi)).
    reflexivity.
  - apply (proj2 (add_u16_wraps_or_is_rejected configs.narrow_u16_abi)).
    reflexivity.
Defined.

(** * Further properties of the wrappers *)

(** X6.  [UNSAFE_unverified] of a [tainted_relocatable<T>] aborts exactly
    when [T] is neither fundamental nor an enum; for the other types it
    yields a value and never an error. *)
Theorem unverified_aborts_iff_not_fundamental (T : ctype)
  (TSbx : sandbox_plugin) (self : tainted_relocatable.class T TSbx) :
  (tainted_relocatable.UNSAFE_unverified_of T TSbx self = Fatal <->
   is_fundamental_or_enum_v T = false) /\
  (is_fundamental_or_enum_v T = true <->
   exists v, tainted_relocatable.UNSAFE_unverified_of T TSbx self = Value v).
Proof.
  destruct T; cbn; (split; split); try done; eauto.
  all: by intros [v Hv].
Qed.

(** * Further properties of the sandboxed test functions *)

(** ** Unsigned arithmetic *)

Lemma static_cast_unsigned (T : int_type) (v : Z) :
  is_signed T = false -> static_cast T v = v mod 2 ^ Z.pos (bits T).
Proof. intros Hu. unfold static_cast. by rewrite Hu. Qed.

Lemma static_cast_idemp (T : int_type) (v : Z) :
  static_cast T (static_cast T v) = static_cast T v.
Proof. apply static_cast_representable, static_cast_in_range. Qed.

(** Reducing an operand first does not change the reduced sum. *)
Lemma static_cast_add_l (T : int_type) (a b : Z) :
  is_signed T = false ->
  static_cast T (static_cast T a + b) = static_cast T (a + b).
Proof.
  intros Hu. rewrite !(static_cast_unsigned T _ Hu).
  apply Zplus_mod_idemp_l.
Qed.

Lemma unsigned_sum_wraps (T : int_type) (a b : Z) :
  is_signed T = false ->
  representable T a = true -> representable T b = true ->
  static_cast T (a + b)
  = if a + b <=? numeric_limits_max T then a + b
    else a + b - 2 ^ Z.pos (bits T).
Proof.
  intros Hu Ha Hb. apply representable_spec in Ha, Hb.
  unfold numeric_limits_min, numeric_limits_max in *. rewrite Hu in *.
  rewrite (static_cast_unsigned T _ Hu).
  destruct (Z.leb_spec (a + b) (2 ^ Z.pos (bits T) - 1)).
  - apply Z.mod_small. lia.
  - symmetry. apply (Z.mod_unique _ _ 1); lia.
Qed.

(** X8.  [test_add_uint16_t], [test_add_uint32_t] and [test_add_uint64_t]
    on operands of their type: the result is again a value of the type; it
    is the exact sum when the type can hold it and the sum less [2^bits]
    when it cannot; and the order of the operands does not matter. *)
Theorem test_add_unsigned_wraps (k : test_invoke.unsigned_add_test) (a b : Z) :
  representable (test_invoke.operand_type k) a = true ->
  representable (test_invoke.operand_type k) b = true ->
  representable (test_invoke.operand_type k) (test_invoke.test_add k a b) = true /\
  test_invoke.test_add k a b
  = (if a + b <=? numeric_limits_max (test_invoke.operand_type k) then a + b
     else a + b - 2 ^ Z.pos (bits (test_invoke.operand_type k))) /\
  test_invoke.test_add k a b = test_invoke.test_add k b a.
Proof.
  intros Ha Hb.
  assert (Hdef : test_invoke.test_add k a b
                 = static_cast (test_invoke.operand_type k) (a + b))
    by (by destruct k).
  assert (Hdef' : test_invoke.test_add k b a
                  = static_cast (test_invoke.operand_type k) (b + a))
    by (by destruct k).
  assert (Hu : is_signed (test_invoke.operand_type k) = false)
    by (by destruct k).
  rewrite Hdef, Hdef'. split; [|split].
  - apply static_cast_in_range.
  - by apply unsigned_sum_wraps.
  - by rewrite (Z.add_comm b a).
Qed.

Lemma test_add_unsigned_wraps_witness :
  representable uint32_t (test_invoke.test_add_uint32_t (2 ^ 32 - 1) 5) = true /\
  test_invoke.test_add_uint32_t (2 ^ 32 - 1) 5 = 4 /\
  test_invoke.test_add_uint32_t (2 ^ 32 - 1) 5
  = test_invoke.test_add_uint32_t 5 (2 ^ 32 - 1).
Proof.
  apply (test_add_unsigned_wraps test_invoke.AddU32 (2 ^ 32 - 1) 5); reflexivity.
Defined.

(** ** Summing an array in sandbox memory *)

Lemma sumZ_cons (x : Z) (xs : list Z) :
  invariants.sumZ (x :: xs) = x + invariants.sumZ xs.
Proof. reflexivity. Qed.

Lemma sumZ_take_S (k : nat) (x : Z) (xs : list Z) :
  invariants.sumZ (take (S k) (x :: xs)) = x + invariants.sumZ (take k xs).
Proof. reflexivity. Qed.

Section ArraySum.
Context (sizeof_int : positive) (TSbxInt : int_type).

Local Abbreviation int_t := (test_invoke.int_t sizeof_int).
Local Abbreviation common_t :=
  (test_invoke.usual_arithmetic_conversions sizeof_int TSbxInt int_t).

(** The type in which [sum + copy] is evaluated. *)
Lemma common_type_of_sum :
  common_t = if (bits TSbxInt <? bits int_t)%positive then int_t else TSbxInt.
Proof.
  unfold test_invoke.usual_arithmetic_conversions,
    test_invoke.integral_promotion. cbv zeta.
  rewrite (Pos.ltb_irrefl (bits int_t)).
  destruct (Pos.ltb_spec (bits TSbxInt) (bits int_t)) as [Hlt | Hge].
  - cbn [is_signed test_invoke.int_t Bool.eqb].
    by rewrite Pos.ltb_irrefl.
  - destruct (is_signed TSbxInt) eqn:Hs; cbn [is_signed test_invoke.int_t Bool.eqb].
    + destruct (Pos.ltb_spec (bits TSbxInt) (bits int_t)); [lia|done].
    + destruct (Pos.leb_spec (bits int_t) (bits TSbxInt)); [done|lia].
Qed.

(** It holds every value of [TSbxInt]. *)
Lemma common_type_covers (v : Z) :
  representable TSbxInt v = true -> representable common_t v = true.
Proof.
  rewrite common_type_of_sum.
  destruct (Pos.ltb_spec (bits TSbxInt) (bits int_t)) as [Hlt | Hge]; [|done].
  rewrite !representable_spec.
  unfold numeric_limits_min, numeric_limits_max.
  cbn [is_signed test_invoke.int_t].
  pose proof (pow2_half (bits TSbxInt)) as Hh.
  pose proof (pow2_half_pos (bits TSbxInt)) as Hp.
  assert (Hmono : 2 ^ Z.pos (bits TSbxInt) <= 2 ^ (Z.pos (bits int_t) - 1))
    by (apply Z.pow_le_mono_r; lia).
  destruct (is_signed TSbxInt); lia.
Qed.

Lemma add_in_exact (a b : Z) :
  representable TSbxInt (a + b) = true ->
  test_invoke.add_in common_t a b = Some (a + b).
Proof.
  intros Hr. apply common_type_covers in Hr.
  unfold test_invoke.add_in. destruct (is_signed common_t).
  - by rewrite Hr.
  - by rewrite static_cast_representable.
Qed.

(** The loop started at index [i] with the sum [s], when no partial sum
    leaves the range of [TSbxInt]. *)
Lemma sum_loop_exact (m : sandbox_memory) (arr : Z) (xs : list Z) :
  forall i s,
    (forall (j : nat) (x : Z), xs !! j = Some x ->
       m !! (arr + Z.pos sizeof_int * (i + Z.of_nat j)) = Some x) ->
    (forall k : nat, (1 <= k <= length xs)%nat ->
       representable TSbxInt (s + invariants.sumZ (take k xs)) = true) ->
    test_invoke.sum_loop sizeof_int TSbxInt m arr (length xs) i s
    = Some (s + invariants.sumZ xs).
Proof.
  induction xs as [|x xs IH]; intros i s Hmem Hsums.
  - cbn. f_equal. lia.
  - cbn [length test_invoke.sum_loop].
    pose proof (Hmem 0%nat x eq_refl) as H0.
    replace (i + Z.of_nat 0) with i in H0 by lia. rewrite H0.
    cbn [mbind option_bind].
    assert (Hfirst : representable TSbxInt (s + x) = true).
    { specialize (Hsums 1%nat). rewrite sumZ_take_S in Hsums.
      replace (take 0 xs) with (@nil Z) in Hsums by (by destruct xs).
      replace (s + (x + invariants.sumZ [])) with (s + x) in Hsums
        by (cbn; lia).
      apply Hsums. cbn [length]. lia. }
    rewrite (add_in_exact _ _ Hfirst). cbn [mbind option_bind].
    rewrite (static_cast_representable _ _ Hfirst).
    rewrite IH.
    + f_equal. rewrite sumZ_cons. lia.
    + intros j y Hj. specialize (Hmem (S j) y Hj).
      replace (i + 1 + Z.of_nat j) with (i + Z.of_nat (S j)) by lia. exact Hmem.
    + intros k Hk. specialize (Hsums (S k)). rewrite sumZ_take_S in Hsums.
      replace (s + x + invariants.sumZ (take k xs))
        with (s + (x + invariants.sumZ (take k xs))) by lia.
      apply Hsums. cbn [length]. lia.
Qed.

(** The loop for an unsigned [TSbxInt] at least as wide as [int]. *)
Lemma sum_loop_modular (m : sandbox_memory) (arr : Z) (xs : list Z) :
  is_signed TSbxInt = false ->
  (bits int_t <= bits TSbxInt)%positive ->
  forall i s,
    representable TSbxInt s = true ->
    (forall (j : nat) (x : Z), xs !! j = Some x ->
       m !! (arr + Z.pos sizeof_int * (i + Z.of_nat j)) = Some x) ->
    test_invoke.sum_loop sizeof_int TSbxInt m arr (length xs) i s
    = Some (static_cast TSbxInt (s + invariants.sumZ xs)).
Proof.
  intros Hu Hwide.
  assert (Hc : common_t = TSbxInt).
  { rewrite common_type_of_sum.
    destruct (Pos.ltb_spec (bits TSbxInt) (bits int_t)); [lia|done]. }
  induction xs as [|x xs IH]; intros i s Hs Hmem.
  - cbn. f_equal. replace (s + 0) with s by lia.
    symmetry. by apply static_cast_representable.
  - cbn [length test_invoke.sum_loop].
    pose proof (Hmem 0%nat x eq_refl) as H0.
    replace (i + Z.of_nat 0) with i in H0 by lia. rewrite H0.
    cbn [mbind option_bind].
    rewrite Hc. unfold test_invoke.add_in. rewrite Hu.
    cbn [mbind option_bind]. rewrite static_cast_idemp.
    rewrite IH.
    + f_equal. rewrite (static_cast_add_l _ _ _ Hu). f_equal.
      rewrite sumZ_cons. lia.
    + apply static_cast_in_range.
    + intros j y Hj. specialize (Hmem (S j) y Hj).
      replace (i + 1 + Z.of_nat j) with (i + Z.of_nat (S j)) by lia. exact Hmem.
Qed.

End ArraySum.

(** X9.  For a count that is not positive, [test_array_arg_internal]
    returns 0 and reads nothing: whatever the memory holds, even nothing. *)
Theorem array_sum_of_nothing (sizeof_int : positive) (TSbxInt : int_type)
  (m : sandbox_memory) (aSandboxMemory aArrIdx aCount : Z) :
  aCount <= 0 ->
  test_invoke.test_array_arg_internal sizeof_int TSbxInt m
    aSandboxMemory aArrIdx aCount = Some 0.
Proof.
  intros Hc. unfold test_invoke.test_array_arg_internal. cbv zeta.
  by replace (Z.to_nat aCount) with 0%nat by lia.
Qed.

Lemma array_sum_of_nothing_witness :
  test_invoke.test_array_arg_internal 4 int32_t ∅ 4096 4 0 = Some 0.
Proof.
  apply (array_sum_of_nothing 4 int32_t ∅ 4096 4 0). lia.
Defined.

(** X10.  [test_array_arg_internal] returns the sum of the [aCount] stored
    [int]s whenever no partial sum leaves the range of [TSbxInt]. *)
Theorem array_sum_exact (sizeof_int : positive) (TSbxInt : int_type)
  (m : sandbox_memory) (aSandboxMemory aArrIdx : Z) (xs : list Z) :
  invariants.stored_at m (aSandboxMemory + aArrIdx) (Z.pos sizeof_int) xs ->
  (forall k : nat, (1 <= k <= length xs)%nat ->
     representable TSbxInt (invariants.sumZ (take k xs)) = true) ->
  test_invoke.test_array_arg_internal sizeof_int TSbxInt m
    aSandboxMemory aArrIdx (Z.of_nat (length xs))
  = Some (invariants.sumZ xs).
Proof.
  intros Hmem Hsums. unfold test_invoke.test_array_arg_internal. cbv zeta.
  rewrite Nat2Z.id.
  rewrite (sum_loop_exact sizeof_int TSbxInt m _ xs 0 0).
  - f_equal.
  - intros j x Hj. replace (0 + Z.of_nat j) with (Z.of_nat j) by lia.
    by apply Hmem.
  - intros k Hk.
    replace (0 + invariants.sumZ (take k xs))
      with (invariants.sumZ (take k xs)) by lia.
    by apply Hsums.
Qed.

Lemma array_sum_exact_witness :
  test_invoke.test_array_arg_internal 4 int16_t
    (<[4108 := 10000]> (<[4104 := -20000]> (<[4100 := 30000]> ∅))) 4096 4 3
  = Some 20000.
Proof.
  apply (array_sum_exact 4 int16_t
           (<[4108 := 10000]> (<[4104 := -20000]> (<[4100 := 30000]> ∅)))
           4096 4 [30000; -20000; 10000]).
  - intros [|[|[|j]]] x Hx; cbn in Hx; try discriminate;
      injection Hx as <-; reflexivity.
  - intros [|[|[|[|k]]]] Hk; cbn [length] in Hk; try lia; reflexivity.
Defined.

(** X11.  For an unsigned [TSbxInt] at least as wide as [int], the function
    is defined on every stored array and returns the sum of its elements
    reduced modulo [2^bits]: wrapping at each step loses nothing. *)
Theorem array_sum_modular (sizeof_int : positive) (TSbxInt : int_type)
  (m : sandbox_memory) (aSandboxMemory aArrIdx : Z) (xs : list Z) :
  is_signed TSbxInt = false ->
  (bits (test_invoke.int_t sizeof_int) <= bits TSbxInt)%positive ->
  invariants.stored_at m (aSandboxMemory + aArrIdx) (Z.pos sizeof_int) xs ->
  test_invoke.test_array_arg_internal sizeof_int TSbxInt m
    aSandboxMemory aArrIdx (Z.of_nat (length xs))
  = Some (static_cast TSbxInt (invariants.sumZ xs)).
Proof.
  intros Hu Hwide Hmem. unfold test_invoke.test_array_arg_internal. cbv zeta.
  rewrite Nat2Z.id.
  rewrite (sum_loop_modular sizeof_int TSbxInt m _ xs Hu Hwide 0 0).
  - do 2 f_equal.
  - apply representable_0.
  - intros j x Hj. replace (0 + Z.of_nat j) with (Z.of_nat j) by lia.
    by apply Hmem.
Qed.

Lemma array_sum_modular_witness :
  test_invoke.test_array_arg_internal 4 uint32_t
    (<[4108 := 5]> (<[4104 := 2147483647]> (<[4100 := 2147483647]> ∅)))
    4096 4 3
  = Some 3.
Proof.
  apply (array_sum_modular 4 uint32_t
           (<[4108 := 5]> (<[4104 := 2147483647]> (<[4100 := 2147483647]> ∅)))
           4096 4 [2147483647; 2147483647; 5]).
  - reflexivity.
  - cbn. lia.
  - intros [|[|[|j]]] x Hx; cbn in Hx; try discriminate;
      injection Hx as <-; reflexivity.
Defined.

Section ArrayFootprint.
Context (sizeof_int : positive) (TSbxInt : int_type).

Lemma sum_loop_agree (m1 m2 : sandbox_memory) (arr : Z) (n : nat) :
  forall i s,
    (forall j : nat, (j < n)%nat ->
       m1 !! (arr + Z.pos sizeof_int * (i + Z.of_nat j))
       = m2 !! (arr + Z.pos sizeof_int * (i + Z.of_nat j))) ->
    test_invoke.sum_loop sizeof_int TSbxInt m1 arr n i s
    = test_invoke.sum_loop sizeof_int TSbxInt m2 arr n i s.
Proof.
  induction n as [|n IH]; intros i s Hagree; [reflexivity|].
  cbn [test_invoke.sum_loop].
  pose proof (Hagree 0%nat ltac:(lia)) as H0.
  replace (i + Z.of_nat 0) with i in H0 by lia. rewrite H0.
  destruct (m2 !! (arr + Z.pos sizeof_int * i)) as [copy|]; [|reflexivity].
  cbn [mbind option_bind].
  destruct (test_invoke.add_in _ s copy) as [s'|]; [|reflexivity].
  cbn [mbind option_bind]. apply IH.
  intros j Hj. specialize (Hagree (S j) ltac:(lia)).
  by replace (i + 1 + Z.of_nat j) with (i + Z.of_nat (S j)) by lia.
Qed.

Lemma sum_loop_in_range (m : sandbox_memory) (arr : Z) (n : nat) :
  forall i s r,
    representable TSbxInt s = true ->
    test_invoke.sum_loop sizeof_int TSbxInt m arr n i s = Some r ->
    representable TSbxInt r = true.
Proof.
  induction n as [|n IH]; intros i s r Hs; cbn [test_invoke.sum_loop].
  - by intros [= <-].
  - destruct (m !! (arr + Z.pos sizeof_int * i)) as [copy|]; [|discriminate].
    cbn [mbind option_bind].
    destruct (test_invoke.add_in _ s copy) as [s'|]; [|discriminate].
    cbn [mbind option_bind]. apply IH, static_cast_in_range.
Qed.

End ArrayFootprint.

(** X12.  [test_array_arg_internal] reads the [aCount] elements of the array
    and nothing else: two memories that agree on them give the same
    result. *)
Theorem array_sum_reads_only_the_array (sizeof_int : positive)
  (TSbxInt : int_type) (m1 m2 : sandbox_memory)
  (aSandboxMemory aArrIdx aCount : Z) :
  (forall j, 0 <= j < aCount ->
     m1 !! (aSandboxMemory + aArrIdx + Z.pos sizeof_int * j)
     = m2 !! (aSandboxMemory + aArrIdx + Z.pos sizeof_int * j)) ->
  test_invoke.test_array_arg_internal sizeof_int TSbxInt m1
    aSandboxMemory aArrIdx aCount
  = test_invoke.test_array_arg_internal sizeof_int TSbxInt m2
      aSandboxMemory aArrIdx aCount.
Proof.
  intros Hagree. unfold test_invoke.test_array_arg_internal. cbv zeta.
  apply sum_loop_agree. intros j Hj.
  replace (0 + Z.of_nat j) with (Z.of_nat j) by lia.
  apply Hagree. lia.
Qed.

Lemma array_sum_reads_only_the_array_witness :
  test_invoke.test_array_arg_internal 4 int32_t
    (<[4104 := 7]> (<[4100 := 3]> ∅)) 4096 4 1
  = test_invoke.test_array_arg_internal 4 int32_t
      (<[8192 := 1]> (<[4104 := 9]> (<[4100 := 3]> ∅))) 4096 4 1.
Proof.
  apply (array_sum_reads_only_the_array 4 int32_t
           (<[4104 := 7]> (<[4100 := 3]> ∅))
           (<[8192 := 1]> (<[4104 := 9]> (<[4100 := 3]> ∅))) 4096 4 1).
  intros j Hj. replace j with 0 by lia. reflexivity.
Defined.

(** X13.  Whatever [test_array_arg_internal] returns is a value of
    [TSbxInt]. *)
Theorem array_sum_in_range (sizeof_int : positive) (TSbxInt : int_type)
  (m : sandbox_memory) (aSandboxMemory aArrIdx aCount r : Z) :
  test_invoke.test_array_arg_internal sizeof_int TSbxInt m
    aSandboxMemory aArrIdx aCount = Some r ->
  representable TSbxInt r = true.
Proof.
  unfold test_invoke.test_array_arg_internal. cbv zeta.
  apply sum_loop_in_range, representable_0.
Qed.

Lemma array_sum_in_range_witness : representable uint8_t 4 = true.
Proof.
  apply (array_sum_in_range 4 uint8_t
           (<[4104 := 130]> (<[4100 := 130]> ∅)) 4096 4 2 4).
  reflexivity.
Defined.
